(** * MoatMiddleware (moat/middleware.py): a shallow embedding

    The middleware gates every Django request behind HTTP Basic Auth.
    This file embeds [MoatMiddleware.__init__], [process_request],
    [_redirect] and [_http_auth_helper] together with the Python 2
    string primitives they call ([str.split], [str.lower],
    [base64.b64decode]).  The framework collaborators ([resolve],
    compiled regex [search], [authenticate]) are Section variables. *)

From Stdlib Require Import String Ascii List ZArith Bool Lia.
From stdpp Require Import base gmap strings.
Import ListNotations.
Open Scope Z_scope.

(* ------------------------------------------------------------------ *)
(** ** Python 2 [str] primitives *)

Module PyStr.

(** Characters [str.split()] treats as whitespace: space, \t \n \v \f \r. *)
Definition is_space (c : ascii) : bool :=
  let n := Z.of_nat (nat_of_ascii c) in
  (n =? 32) || ((9 <=? n) && (n <=? 13)).

Fixpoint split_ws_go (l : list ascii) (cur : list ascii) : list string :=
  match l with
  | [] => match cur with
          | [] => []
          | _ => [string_of_list_ascii (rev cur)]
          end
  | c :: l' =>
      if is_space c then
        match cur with
        | [] => split_ws_go l' []
        | _ => string_of_list_ascii (rev cur) :: split_ws_go l' []
        end
      else split_ws_go l' (c :: cur)
  end.

(** [s.split()]: runs of whitespace separate, no empty fields. *)
Definition split_ws (s : string) : list string :=
  split_ws_go (list_ascii_of_string s) [].

Fixpoint split_on_go (sep : ascii) (l : list ascii) (cur : list ascii)
  : list string :=
  match l with
  | [] => [string_of_list_ascii (rev cur)]
  | c :: l' =>
      if Ascii.eqb c sep then string_of_list_ascii (rev cur) :: split_on_go sep l' []
      else split_on_go sep l' (c :: cur)
  end.

(** [s.split(sep)] for a one-character separator: every occurrence
    splits, empty fields are kept. *)
Definition split_on (sep : ascii) (s : string) : list string :=
  split_on_go sep (list_ascii_of_string s) [].

Definition lower_char (c : ascii) : ascii :=
  let n := nat_of_ascii c in
  if (65 <=? n)%nat && (n <=? 90)%nat then ascii_of_nat (n + 32) else c.

(** [s.lower()] on a byte string: ASCII letters only. *)
Definition lower (s : string) : string :=
  string_of_list_ascii (map lower_char (list_ascii_of_string s)).

(** [s.startswith(p)] *)
Definition startswith (s p : string) : bool := String.prefix p s.

(** [x in xs] for a list of strings *)
Definition list_in (x : string) (xs : list string) : bool :=
  existsb (String.eqb x) xs.

End PyStr.

(* ------------------------------------------------------------------ *)
(** ** [base64.b64decode] (Python 2.7)

    [b64decode(s)] calls [binascii.a2b_base64(s)] and turns its
    [binascii.Error] into [TypeError].  [a2b_base64] is the CPython loop
    below: it skips bytes above 0x7f, CR, LF, space and every byte that
    is not in the alphabet; a pad byte at quad position 0 or 1, or a
    lone pad at position 2, is skipped; any other pad ends the input;
    leftover bits at the end are "Incorrect padding". *)

Module B64.

(** [table_a2b_base64]: [None] stands for the table's -1; '=' maps to 0. *)
Definition table (c : ascii) : option Z :=
  let n := Z.of_nat (nat_of_ascii c) in
  if (65 <=? n) && (n <=? 90) then Some (n - 65)
  else if (97 <=? n) && (n <=? 122) then Some (n - 71)
  else if (48 <=? n) && (n <=? 57) then Some (n + 4)
  else if n =? 43 then Some 62
  else if n =? 47 then Some 63
  else if n =? 61 then Some 0
  else None.

Definition pad : ascii := "="%char.

(** [binascii_find_valid(s, len, 1)] called at a pad byte: the next
    valid byte after it. *)
Fixpoint next_valid (l : list ascii) : option ascii :=
  match l with
  | [] => None
  | c :: l' =>
      if (Z.of_nat (nat_of_ascii c) <=? 127) && match table c with Some _ => true | None => false end
      then Some c else next_valid l'
  end.

Definition skipped (c : ascii) : bool :=
  let n := Z.of_nat (nat_of_ascii c) in
  (127 <? n) || (n =? 13) || (n =? 10) || (n =? 32).

Fixpoint a2b_go (l : list ascii) (quad_pos leftbits leftchar : Z)
  (out : list ascii) : option (list ascii) :=
  match l with
  | [] => if leftbits =? 0 then Some (rev out) else None
  | c :: l' =>
      if skipped c then a2b_go l' quad_pos leftbits leftchar out
      else if Ascii.eqb c pad then
        if (quad_pos <? 2)
           || ((quad_pos =? 2)
               && negb (match next_valid l' with
                        | Some d => Ascii.eqb d pad
                        | None => false
                        end))
        then a2b_go l' quad_pos leftbits leftchar out
        else Some (rev out)                 (* leftbits = 0; break *)
      else
        match table c with
        | None => a2b_go l' quad_pos leftbits leftchar out
        | Some v =>
            let qp := Z.land (quad_pos + 1) 3 in
            let lc := Z.lor (Z.shiftl leftchar 6) v in
            let lb := leftbits + 6 in
            if 8 <=? lb then
              let lb' := lb - 8 in
              let byte := Z.land (Z.shiftr lc lb') 255 in
              a2b_go l' qp lb' (Z.land lc (Z.shiftl 1 lb' - 1))
                (ascii_of_nat (Z.to_nat byte) :: out)
            else a2b_go l' qp lb lc out
        end
  end.

(** [None] is the raised [TypeError("Incorrect padding")]. *)
Definition b64decode (s : string) : option string :=
  option_map string_of_list_ascii (a2b_go (list_ascii_of_string s) 0 0 0 []).

End B64.

(* ------------------------------------------------------------------ *)
(** ** Data model *)

(** [django.conf.settings]: an attribute that is not set is [None]. *)
Record Settings := {
  MOAT_ENABLED : option bool;
  MOAT_ALWAYS_ALLOW_MODULES : option (list string);
  MOAT_ALWAYS_ALLOW_VIEWS : option (list string);
  MOAT_ALWAYS_ALLOW_URLS : option (list string);
  MOAT_ALLOW_ADMIN : option bool;
  MOAT_DEBUG_DISABLE_HTTPS : option bool;
  DEBUG : bool;
  HTTP_AUTH_REALM : option string
}.

(** The attributes [MoatMiddleware.__init__] stores; a compiled regex is
    kept as its source string and matched through [search] below. *)
Record MoatMiddleware := {
  always_allow_modules : list string;
  always_allow_views : list string;
  always_allow_urls : list string;
  allow_admin : bool;
  debug_disable_https : bool
}.

Definition getattr {A} (o : option A) (default : A) : A :=
  match o with Some a => a | None => default end.

Definition MoatMiddleware_init (s : Settings) : MoatMiddleware := {|
  always_allow_modules := getattr (MOAT_ALWAYS_ALLOW_MODULES s) [];
  always_allow_views := getattr (MOAT_ALWAYS_ALLOW_VIEWS s) [];
  always_allow_urls := getattr (MOAT_ALWAYS_ALLOW_URLS s) [];
  allow_admin := getattr (MOAT_ALLOW_ADMIN s) false;
  debug_disable_https := getattr (MOAT_DEBUG_DISABLE_HTTPS s) false
|}.

(** The request as the middleware sees it.  [is_secure] is the value
    [request.is_secure()] returns; [session] is [request.session]. *)
Record Request := {
  path : string;
  PATH_INFO : string;
  HTTP_X_FORWARDED_PROTO : option string;
  HTTP_AUTHORIZATION : option string;
  session : gmap string string;
  is_secure : bool;
  host : string;                (* request.get_host() *)
  full_path : string;           (* request.get_full_path() *)
  method : string
}.

Definition set_is_secure (r : Request) (b : bool) : Request :=
  {| path := path r; PATH_INFO := PATH_INFO r;
     HTTP_X_FORWARDED_PROTO := HTTP_X_FORWARDED_PROTO r;
     HTTP_AUTHORIZATION := HTTP_AUTHORIZATION r; session := session r;
     is_secure := b; host := host r; full_path := full_path r;
     method := method r |}.

Definition set_session (r : Request) (s : gmap string string) : Request :=
  {| path := path r; PATH_INFO := PATH_INFO r;
     HTTP_X_FORWARDED_PROTO := HTTP_X_FORWARDED_PROTO r;
     HTTP_AUTHORIZATION := HTTP_AUTHORIZATION r; session := s;
     is_secure := is_secure r; host := host r; full_path := full_path r;
     method := method r |}.

(** What [resolve(path).func] gives: the view's module and name. *)
Record ViewFunc := { vf_module : string; vf_name : string }.

(** What [authenticate] returns when it succeeds. *)
Record User := { is_staff : bool }.

Record HttpResponse := {
  status_code : Z;
  headers : list (string * string)
}.

Inductive Exn :=
| RuntimeError (msg : string)
| ValueError                   (* unpacking a split of the wrong length *)
| TypeError                    (* b64decode: Incorrect padding *)
| Resolver404.                 (* resolve: no URL pattern matches *)

(** Result of a middleware call: [None] returned (the request goes on),
    a response returned, or an exception raised. *)
Inductive Outcome :=
| Continue
| Respond (r : HttpResponse)
| Raise (e : Exn).

Definition dquote : string := String (ascii_of_nat 34) EmptyString.

(** [HttpResponseTemporaryRedirect(newurl)] *)
Definition HttpResponseTemporaryRedirect (url : string) : HttpResponse :=
  {| status_code := 307; headers := [("Location"%string, url)] |}.

(** The 401 challenge built at the end of [_http_auth_helper]. *)
Definition challenge (realm : string) : HttpResponse :=
  {| status_code := 401;
     headers := [("WWW-Authenticate"%string,
                  ("Basic realm=" ++ dquote ++ realm ++ dquote)%string)] |}.

Definition redirect_msg : string :=
  "Django can't perform a SSL redirect while maintaining POST data. Please structure your views so that redirects only occur during GETs.".

(* ------------------------------------------------------------------ *)
(** ** The middleware *)

Section Middleware.

(** [re.compile(p).search(s) is not None] *)
Variable search : string -> string -> bool.
(** [resolve(path).func]; [None] when [resolve] raises [Resolver404]. *)
Variable resolve : string -> option ViewFunc.
(** [django.contrib.auth.authenticate(username=, password=)] *)
Variable authenticate : string -> string -> option User.

Variable settings : Settings.
Variable self : MoatMiddleware.

Definition _redirect (request : Request) : Outcome :=
  let newurl := ("https://" ++ host request ++ full_path request)%string in
  if DEBUG settings && String.eqb (method request) "POST" then
    Raise (RuntimeError redirect_msg)
  else Respond (HttpResponseTemporaryRedirect newurl).

Definition auth_challenge : Outcome :=
  Respond (challenge (getattr (HTTP_AUTH_REALM settings) "")).

Definition _http_auth_helper (request : Request) : Outcome * Request :=
  match HTTP_AUTHORIZATION request with
  | Some hdr =>
      match PyStr.split_ws hdr with
      | [scheme; cred] =>
          if String.eqb (PyStr.lower scheme) "basic" then
            match B64.b64decode cred with
            | None => (Raise TypeError, request)
            | Some decoded =>
                match PyStr.split_on ":" decoded with
                | [uname; passwd] =>
                    match authenticate uname passwd with
                    | Some user =>
                        if is_staff user then
                          (Continue,
                           set_session request
                             (<["moat_username" := uname]> (session request)))
                        else (auth_challenge, request)
                    | None => (auth_challenge, request)
                    end
                | _ => (Raise ValueError, request)
                end
            end
          else (auth_challenge, request)
      | _ => (auth_challenge, request)
      end
  | None => (auth_challenge, request)
  end.

(** [if xs:] on a list *)
Definition truthy {A} (xs : list A) : bool :=
  match xs with [] => false | _ => true end.

(** [try: if not settings.MOAT_ENABLED: return] / [except AttributeError: pass] *)
Definition globally_disabled : bool :=
  match MOAT_ENABLED settings with Some b => negb b | None => false end.

(** [for allowed_url in self.always_allow_urls: if allowed_url.search(request.path): return] *)
Definition url_allowed (request : Request) : bool :=
  existsb (fun allowed_url => search allowed_url (path request))
    (always_allow_urls self).

(** [request.session.get('moat_username') is not None] *)
Definition already_authenticated (request : Request) : bool :=
  match session request !! "moat_username" with Some _ => true | None => false end.

(** The three view checks after [resolve]. *)
Definition view_allowed (view_func : ViewFunc) : bool :=
  let whitelisted_modules :=
    [] ++ (if truthy (always_allow_modules self) then always_allow_modules self else []) in
  let whitelisted_views :=
    ["django.views.generic.simple.redirect_to"%string]
      ++ (if truthy (always_allow_views self) then always_allow_views self else []) in
  let full_view_name := (vf_module view_func ++ "." ++ vf_name view_func)%string in
  PyStr.list_in full_view_name whitelisted_views
  || PyStr.list_in (vf_module view_func) whitelisted_modules
  || (allow_admin self && PyStr.startswith (vf_module view_func) "django.contrib.admin").

(** [if 'HTTP_X_FORWARDED_PROTO' in request.META and ... == 'https':
    request.is_secure = lambda: True] *)
Definition forwarded_proto (request : Request) : Request :=
  match HTTP_X_FORWARDED_PROTO request with
  | Some xfp => if String.eqb xfp "https" then set_is_secure request true else request
  | None => request
  end.

Definition process_request (request : Request) : Outcome * Request :=
  if globally_disabled then (Continue, request) else
  if url_allowed request then (Continue, request) else
  if already_authenticated request then (Continue, request) else
  match resolve (PATH_INFO request) with
  | None => (Raise Resolver404, request)
  | Some view_func =>
    if view_allowed view_func then (Continue, request) else
    let request := forwarded_proto request in
    if negb (debug_disable_https self) && negb (is_secure request)
    then (_redirect request, request)
    else _http_auth_helper request
  end.

End Middleware.

(* ------------------------------------------------------------------ *)
(** ** Predicates used in the statements *)

(** [s] contains no byte that [str.split()] treats as whitespace. *)
Definition no_space (s : string) : bool :=
  forallb (fun c => negb (PyStr.is_space c)) (list_ascii_of_string s).

(** [s] contains no occurrence of the byte [c]. *)
Definition no_char (c : ascii) (s : string) : bool :=
  forallb (fun d => negb (Ascii.eqb d c)) (list_ascii_of_string s).

(** A request with its Authorization header replaced. *)
Definition set_authorization (r : Request) (a : option string) : Request :=
  {| path := path r; PATH_INFO := PATH_INFO r;
     HTTP_X_FORWARDED_PROTO := HTTP_X_FORWARDED_PROTO r;
     HTTP_AUTHORIZATION := a; session := session r;
     is_secure := is_secure r; host := host r; full_path := full_path r;
     method := method r |}.

(** A settings object with [MOAT_ENABLED] replaced. *)
Definition with_enabled (s : Settings) (e : option bool) : Settings :=
  {| MOAT_ENABLED := e;
     MOAT_ALWAYS_ALLOW_MODULES := MOAT_ALWAYS_ALLOW_MODULES s;
     MOAT_ALWAYS_ALLOW_VIEWS := MOAT_ALWAYS_ALLOW_VIEWS s;
     MOAT_ALWAYS_ALLOW_URLS := MOAT_ALWAYS_ALLOW_URLS s;
     MOAT_ALLOW_ADMIN := MOAT_ALLOW_ADMIN s;
     MOAT_DEBUG_DISABLE_HTTPS := MOAT_DEBUG_DISABLE_HTTPS s;
     DEBUG := DEBUG s; HTTP_AUTH_REALM := HTTP_AUTH_REALM s |}.

(* ------------------------------------------------------------------ *)
(** ** A concrete deployment, for witnesses and counterexamples *)

Module Demo.

(** A regex made of literal characters: [search] finds it anywhere. *)
Definition search (pat s : string) : bool :=
  match String.index 0 pat s with Some _ => true | None => false end.

(** One URLconf entry for every path. *)
Definition resolve (_ : string) : option ViewFunc :=
  Some {| vf_module := "shop.views"; vf_name := "index" |}.

Definition authenticate (u p : string) : option User :=
  if String.eqb u "admin" && String.eqb p "secret"
  then Some {| is_staff := true |} else None.

Definition settings (enabled : option bool) (debug : bool) : Settings :=
  {| MOAT_ENABLED := enabled;
     MOAT_ALWAYS_ALLOW_MODULES := None;
     MOAT_ALWAYS_ALLOW_VIEWS := None;
     MOAT_ALWAYS_ALLOW_URLS := Some ["/public/"%string];
     MOAT_ALLOW_ADMIN := None;
     MOAT_DEBUG_DISABLE_HTTPS := None;
     DEBUG := debug; HTTP_AUTH_REALM := Some "shop"%string |}.

Definition mw : MoatMiddleware := MoatMiddleware_init (settings None false).

(** A plain-HTTP request for [/cart?x=1] with the given method,
    forwarded-proto header and Authorization header. *)
Definition request (meth : string) (xfp auth : option string) : Request :=
  {| path := "/cart"; PATH_INFO := "/cart"; HTTP_X_FORWARDED_PROTO := xfp;
     HTTP_AUTHORIZATION := auth; session := ∅; is_secure := false;
     host := "shop.example"; full_path := "/cart?x=1"; method := meth |}.

(** A plain-HTTP POST under [/public/] with a bad credential header. *)
Definition public_request : Request :=
  {| path := "/public/logo.png"; PATH_INFO := "/public/logo.png";
     HTTP_X_FORWARDED_PROTO := None;
     HTTP_AUTHORIZATION := Some "Basic Zm9v"%string; session := ∅;
     is_secure := false; host := "shop.example";
     full_path := "/public/logo.png"; method := "POST" |}.

End Demo.

(** Bytes [a2b_base64] does not skip: the alphabet and '='. *)
Definition b64_valid (c : ascii) : bool :=
  match B64.table c with Some _ => true | None => false end.

(** Bytes of the base64 alphabet proper (no pad). *)
Definition b64_alphabet (c : ascii) : bool :=
  b64_valid c && negb (Ascii.eqb c B64.pad).

(* ------------------------------------------------------------------ *)
(** ** Lemmas on the string primitives *)

Lemma list_ascii_of_string_app (s t : string) :
  list_ascii_of_string (s ++ t) = list_ascii_of_string s ++ list_ascii_of_string t.
Proof. induction s as [|c s IH]; simpl; [reflexivity | now rewrite IH]. Qed.

Lemma split_ws_go_word (l cur : list ascii) :
  forallb (fun c => negb (PyStr.is_space c)) l = true ->
  PyStr.split_ws_go l cur =
    match cur ++ l with
    | [] => []
    | _ => [string_of_list_ascii (rev cur ++ l)]
    end.
Proof.
  revert cur; induction l as [|c l IH]; intros cur Hl; simpl in *.
  - rewrite app_nil_r, app_nil_r. destruct cur; reflexivity.
  - apply andb_true_iff in Hl as [Hc Hl].
    apply negb_true_iff in Hc. rewrite Hc, IH by exact Hl. simpl.
    rewrite <- app_assoc. simpl.
    destruct cur; reflexivity.
Qed.

Lemma split_ws_two (a b : string) :
  a <> EmptyString -> b <> EmptyString -> no_space a = true -> no_space b = true ->
  PyStr.split_ws (a ++ " " ++ b) = [a; b].
Proof.
  intros Ha Hb Hsa Hsb. unfold PyStr.split_ws, no_space in *.
  rewrite list_ascii_of_string_app. simpl.
  assert (Hgo : forall l cur, forallb (fun c => negb (PyStr.is_space c)) l = true ->
            PyStr.split_ws_go (l ++ " "%char :: list_ascii_of_string b) cur =
            match cur ++ l with
            | [] => PyStr.split_ws_go (list_ascii_of_string b) []
            | _ => string_of_list_ascii (rev cur ++ l)
                   :: PyStr.split_ws_go (list_ascii_of_string b) []
            end).
  { induction l as [|c l IH]; intros cur Hl; simpl in *.
    - rewrite app_nil_r, app_nil_r. destruct cur; reflexivity.
    - apply andb_true_iff in Hl as [Hc Hl]. apply negb_true_iff in Hc.
      rewrite Hc, IH by exact Hl. simpl. rewrite <- app_assoc. simpl.
      destruct cur; reflexivity. }
  rewrite Hgo by exact Hsa. simpl.
  rewrite split_ws_go_word by exact Hsb. simpl.
  rewrite !string_of_list_ascii_of_string.
  destruct a; [congruence|]. destruct b; [congruence|]. reflexivity.
Qed.

Lemma split_on_go_none (sep : ascii) (l cur : list ascii) :
  forallb (fun d => negb (Ascii.eqb d sep)) l = true ->
  PyStr.split_on_go sep l cur = [string_of_list_ascii (rev cur ++ l)].
Proof.
  revert cur; induction l as [|c l IH]; intros cur Hl; simpl in *.
  - now rewrite app_nil_r.
  - apply andb_true_iff in Hl as [Hc Hl]. apply negb_true_iff in Hc.
    rewrite Hc, IH by exact Hl. simpl. now rewrite <- app_assoc.
Qed.

Lemma split_on_two (sep : ascii) (a b : string) :
  no_char sep a = true -> no_char sep b = true ->
  PyStr.split_on sep (a ++ String sep b) = [a; b].
Proof.
  intros Ha Hb. unfold PyStr.split_on, no_char in *.
  rewrite list_ascii_of_string_app. simpl.
  assert (Hgo : forall l cur, forallb (fun d => negb (Ascii.eqb d sep)) l = true ->
            PyStr.split_on_go sep (l ++ sep :: list_ascii_of_string b) cur =
            string_of_list_ascii (rev cur ++ l)
              :: PyStr.split_on_go sep (list_ascii_of_string b) []).
  { induction l as [|c l IH]; intros cur Hl; simpl in *.
    - rewrite Ascii.eqb_refl. now rewrite app_nil_r.
    - apply andb_true_iff in Hl as [Hc Hl]. apply negb_true_iff in Hc.
      rewrite Hc, IH by exact Hl. simpl. now rewrite <- app_assoc. }
  rewrite Hgo by exact Ha. rewrite split_on_go_none by exact Hb. simpl.
  now rewrite !string_of_list_ascii_of_string.
Qed.

(* ------------------------------------------------------------------ *)
(** ** Lemmas on [_http_auth_helper] *)

Ltac split_matches := repeat case_match; simplify_eq/=.

Lemma auth_helper_not_redirect authenticate settings request url :
  fst (_http_auth_helper authenticate settings request)
  <> Respond (HttpResponseTemporaryRedirect url).
Proof.
  unfold _http_auth_helper, auth_challenge, challenge, HttpResponseTemporaryRedirect.
  split_matches; discriminate.
Qed.

Lemma auth_helper_no_runtime_error authenticate settings request m :
  fst (_http_auth_helper authenticate settings request) <> Raise (RuntimeError m).
Proof. unfold _http_auth_helper, auth_challenge. split_matches; discriminate. Qed.

(** The helper leaves the request alone except on the staff-login branch. *)
Lemma auth_helper_frame authenticate settings request :
  snd (_http_auth_helper authenticate settings request) = request
  \/ (fst (_http_auth_helper authenticate settings request) = Continue
      /\ exists u pw user, authenticate u pw = Some user /\ is_staff user = true
         /\ snd (_http_auth_helper authenticate settings request)
            = set_session request (<["moat_username" := u]> (session request))).
Proof.
  unfold _http_auth_helper, auth_challenge. split_matches; auto.
  right. split; [reflexivity|]. eauto 6.
Qed.

(* ------------------------------------------------------------------ *)
(** ** Claims *)

(** C1 (code_bug witness): a Basic header whose credential decodes to a
    string without ':' ("Zm9v" is "foo"), or with two ':' ("dTpwOng="
    is "u:p:x"), makes the tuple unpacking raise [ValueError]; a
    credential with bad padding ("Zm9") makes [b64decode] raise
    [TypeError].  None of them is answered with the 401 challenge. *)
Theorem C1_malformed_credentials_raise :
  fst (process_request Demo.search Demo.resolve Demo.authenticate
         (Demo.settings (Some true) false) Demo.mw
         (Demo.request "GET" (Some "https"%string) (Some "Basic Zm9v"%string)))
    = Raise ValueError
  /\ fst (process_request Demo.search Demo.resolve Demo.authenticate
         (Demo.settings (Some true) false) Demo.mw
         (Demo.request "GET" (Some "https"%string) (Some "Basic dTpwOng="%string)))
    = Raise ValueError
  /\ fst (process_request Demo.search Demo.resolve Demo.authenticate
         (Demo.settings (Some true) false) Demo.mw
         (Demo.request "GET" (Some "https"%string) (Some "Basic Zm9"%string)))
    = Raise TypeError.
Proof. vm_compute. auto. Qed.

(** C2 (counterexample): with [MOAT_ENABLED] unset, a plain-HTTP request
    that no allow-list covers is redirected, not let through. *)
Lemma C2_absent_flag_counterexample :
  ~ (forall request,
       fst (process_request Demo.search Demo.resolve Demo.authenticate
              (Demo.settings None false) Demo.mw request) = Continue).
Proof.
  intros H. specialize (H (Demo.request "GET" None None)).
  vm_compute in H. discriminate.
Qed.

(** C2 (amended): an unset [MOAT_ENABLED] gates exactly like
    [MOAT_ENABLED = True]; only a false flag lets every request through
    unchanged. *)
Theorem C2_absent_flag_means_enabled search resolve authenticate s self request :
  process_request search resolve authenticate (with_enabled s None) self request
  = process_request search resolve authenticate (with_enabled s (Some true)) self request
  /\ process_request search resolve authenticate (with_enabled s (Some false)) self request
     = (Continue, request).
Proof.
  split; [|reflexivity].
  unfold process_request, globally_disabled, _redirect, _http_auth_helper, auth_challenge.
  cbn [MOAT_ENABLED DEBUG HTTP_AUTH_REALM with_enabled negb]. reflexivity.
Qed.

(** C3 (counterexample): when [resolve] finds no view, [Resolver404]
    escapes [process_request]; the same request with a resolvable path
    goes on to the HTTPS redirect. *)
Lemma C3_unresolvable_counterexample :
  fst (process_request Demo.search (fun _ => None) Demo.authenticate
         (Demo.settings (Some true) false) Demo.mw (Demo.request "GET" None None))
    = Raise Resolver404
  /\ fst (process_request Demo.search Demo.resolve Demo.authenticate
         (Demo.settings (Some true) false) Demo.mw (Demo.request "GET" None None))
    = Respond (HttpResponseTemporaryRedirect "https://shop.example/cart?x=1").
Proof. vm_compute. auto. Qed.

(** C3 (amended): a request that passes the kill switch, the URL
    allow-list and the session check but whose [PATH_INFO] does not
    resolve ends in the [Resolver404] exception, with the request
    unchanged: neither HTTPS enforcement nor the credential check runs. *)
Theorem C3_unresolvable_raises search resolve authenticate settings self request :
  globally_disabled settings = false ->
  url_allowed search self request = false ->
  already_authenticated request = false ->
  resolve (PATH_INFO request) = None ->
  process_request search resolve authenticate settings self request
  = (Raise Resolver404, request).
Proof.
  intros Hg Hu Ha Hr. unfold process_request. now rewrite Hg, Hu, Ha, Hr.
Qed.

Lemma C3_unresolvable_raises_witness :
  process_request Demo.search (fun _ => None) Demo.authenticate
    (Demo.settings None false) Demo.mw (Demo.request "POST" None None)
  = (Raise Resolver404, Demo.request "POST" None None).
Proof.
  apply C3_unresolvable_raises; vm_compute; reflexivity.
Defined.

(** C4: a request whose [path] is found by one of the allow-listed URL
    regexes is let through with the request (and its session) untouched,
    whatever its session, credentials and transport. *)
Theorem C4_url_allow_list search resolve authenticate settings self request p :
  In p (always_allow_urls self) ->
  search p (path request) = true ->
  process_request search resolve authenticate settings self request
  = (Continue, request).
Proof.
  intros Hin Hs. unfold process_request.
  destruct (globally_disabled settings); [reflexivity|].
  assert (Hu : url_allowed search self request = true).
  { unfold url_allowed. apply existsb_exists. eauto. }
  now rewrite Hu.
Qed.

Lemma C4_url_allow_list_witness :
  process_request Demo.search Demo.resolve Demo.authenticate
    (Demo.settings (Some true) false) Demo.mw Demo.public_request
  = (Continue, Demo.public_request).
Proof.
  apply (C4_url_allow_list _ _ _ _ _ _ "/public/"%string).
  - vm_compute. left. reflexivity.
  - vm_compute. reflexivity.
Defined.

(** C5: a header [Basic <tok>] where [tok] is one whitespace-free word
    that [b64decode] turns into [u:pw] (one ':'), for credentials that
    [authenticate] accepts for a staff user, lets the request through and
    stores [u] under [moat_username] in the session. *)
Theorem C5_basic_auth_success authenticate settings request tok u pw user :
  HTTP_AUTHORIZATION request = Some ("Basic " ++ tok)%string ->
  tok <> EmptyString -> no_space tok = true ->
  B64.b64decode tok = Some (u ++ ":" ++ pw)%string ->
  no_char ":" u = true -> no_char ":" pw = true ->
  authenticate u pw = Some user -> is_staff user = true ->
  _http_auth_helper authenticate settings request
  = (Continue, set_session request (<["moat_username" := u]> (session request)))
  /\ session (snd (_http_auth_helper authenticate settings request))
       !! "moat_username" = Some u.
Proof.
  intros Hh Hne Hsp Hd Hu Hp Ha Hst.
  assert (Hs : PyStr.split_ws ("Basic " ++ tok) = ["Basic"%string; tok]).
  { change ("Basic " ++ tok)%string with ("Basic" ++ " " ++ tok)%string.
    apply split_ws_two; [discriminate | exact Hne | reflexivity | exact Hsp]. }
  assert (Hc : PyStr.split_on ":" (u ++ ":" ++ pw) = [u; pw]).
  { change (":" ++ pw)%string with (String ":" pw). now apply split_on_two. }
  assert (Hres : _http_auth_helper authenticate settings request
                 = (Continue, set_session request
                                (<["moat_username" := u]> (session request)))).
  { unfold _http_auth_helper. rewrite Hh, Hs. cbv beta iota.
    change (String.eqb (PyStr.lower "Basic") "basic") with true. cbv iota.
    rewrite Hd. cbv beta iota. rewrite Hc. cbv beta iota.
    rewrite Ha, Hst. reflexivity. }
  split; [exact Hres|]. rewrite Hres. simpl. apply lookup_insert_eq.
Qed.

Lemma C5_basic_auth_success_witness :
  session (snd (_http_auth_helper Demo.authenticate (Demo.settings (Some true) false)
     (Demo.request "GET" (Some "https"%string) (Some "Basic YWRtaW46c2VjcmV0"%string))))
    !! "moat_username" = Some "admin"%string.
Proof.
  refine (proj2 (C5_basic_auth_success Demo.authenticate (Demo.settings (Some true) false)
    (Demo.request "GET" (Some "https"%string) (Some "Basic YWRtaW46c2VjcmV0"%string))
    "YWRtaW46c2VjcmV0" "admin" "secret" {| is_staff := true |}
    _ _ _ _ _ _ _ _)).
  - reflexivity.
  - discriminate.
  - vm_compute. reflexivity.
  - vm_compute. reflexivity.
  - vm_compute. reflexivity.
  - vm_compute. reflexivity.
  - vm_compute. reflexivity.
  - reflexivity.
Defined.

(* ------------------------------------------------------------------ *)
(** ** Lemmas on the transport checks *)

Lemma forwarded_proto_other request :
  HTTP_X_FORWARDED_PROTO request <> Some "https"%string ->
  forwarded_proto request = request.
Proof.
  unfold forwarded_proto. intros H.
  destruct (HTTP_X_FORWARDED_PROTO request) as [x|]; [|reflexivity].
  destruct (String.eqb_spec x "https"); [subst; congruence | reflexivity].
Qed.

Lemma forwarded_proto_https request :
  HTTP_X_FORWARDED_PROTO request = Some "https"%string ->
  forwarded_proto request = set_is_secure request true.
Proof. unfold forwarded_proto. intros ->. reflexivity. Qed.

(** A request that no earlier step lets through and that arrives over
    plain HTTP reaches [_redirect]. *)
Lemma process_request_reaches_redirect search resolve authenticate settings self request vf :
  globally_disabled settings = false ->
  url_allowed search self request = false ->
  already_authenticated request = false ->
  resolve (PATH_INFO request) = Some vf ->
  view_allowed self vf = false ->
  is_secure request = false ->
  HTTP_X_FORWARDED_PROTO request <> Some "https"%string ->
  debug_disable_https self = false ->
  process_request search resolve authenticate settings self request
  = (_redirect settings request, request).
Proof.
  intros Hg Hu Ha Hr Hv Hsec Hx Hd. unfold process_request.
  rewrite Hg, Hu, Ha, Hr, Hv, (forwarded_proto_other request Hx), Hsec, Hd.
  reflexivity.
Qed.

(** Only [_redirect] raises [RuntimeError], and only for a POST in DEBUG. *)
Lemma process_request_runtime_error search resolve authenticate settings self request m :
  fst (process_request search resolve authenticate settings self request)
    = Raise (RuntimeError m) ->
  DEBUG settings = true /\ method request = "POST"%string.
Proof.
  unfold process_request.
  destruct (globally_disabled settings); [discriminate|].
  destruct (url_allowed search self request); [discriminate|].
  destruct (already_authenticated request); [discriminate|].
  destruct (resolve (PATH_INFO request)) as [vf|]; [|discriminate].
  destruct (view_allowed self vf); [discriminate|].
  destruct (negb (debug_disable_https self) && negb (is_secure (forwarded_proto request))).
  - unfold _redirect. simpl.
    destruct (DEBUG settings) eqn:HD; [|discriminate]. simpl.
    destruct (String.eqb_spec (method (forwarded_proto request)) "POST"); [|discriminate].
    intros _. split; [reflexivity|].
    unfold forwarded_proto in e.
    destruct (HTTP_X_FORWARDED_PROTO request) as [x|]; [|exact e].
    destruct (String.eqb x "https"); exact e.
  - intros H. exfalso. exact (auth_helper_no_runtime_error _ _ _ _ H).
Qed.

(** C6 (counterexample): in DEBUG a plain-HTTP POST that no allow-list
    covers raises [RuntimeError] instead of being redirected. *)
Lemma C6_debug_post_counterexample :
  fst (process_request Demo.search Demo.resolve Demo.authenticate
         (Demo.settings (Some true) true) Demo.mw (Demo.request "POST" None None))
    = Raise (RuntimeError redirect_msg).
Proof. vm_compute. reflexivity. Qed.

(** C6 (amended): a plain-HTTP request without an https forwarded-proto
    header, with gating on, HTTPS enforcement on, no URL allow-list
    match, no session login and a resolved view outside the view
    allow-lists, gets the 307 redirect to "https://" + host + full path
    (query included), except a POST under DEBUG, which raises
    [RuntimeError]; the request is left as it was. *)
Theorem C6_insecure_redirect search resolve authenticate settings self request vf :
  globally_disabled settings = false ->
  url_allowed search self request = false ->
  already_authenticated request = false ->
  resolve (PATH_INFO request) = Some vf ->
  view_allowed self vf = false ->
  is_secure request = false ->
  HTTP_X_FORWARDED_PROTO request <> Some "https"%string ->
  debug_disable_https self = false ->
  process_request search resolve authenticate settings self request
  = (if DEBUG settings && String.eqb (method request) "POST"
     then Raise (RuntimeError redirect_msg)
     else Respond (HttpResponseTemporaryRedirect
                     ("https://" ++ host request ++ full_path request)%string),
     request)
  /\ status_code (HttpResponseTemporaryRedirect
                    ("https://" ++ host request ++ full_path request)%string) = 307.
Proof.
  intros. split; [|reflexivity].
  erewrite process_request_reaches_redirect by eassumption. reflexivity.
Qed.

Lemma C6_insecure_redirect_witness :
  process_request Demo.search Demo.resolve Demo.authenticate
    (Demo.settings None false) Demo.mw (Demo.request "GET" None None)
  = (Respond (HttpResponseTemporaryRedirect "https://shop.example/cart?x=1"),
     Demo.request "GET" None None)
  /\ status_code (HttpResponseTemporaryRedirect "https://shop.example/cart?x=1") = 307.
Proof.
  exact (C6_insecure_redirect Demo.search Demo.resolve Demo.authenticate
           (Demo.settings None false) Demo.mw (Demo.request "GET" None None)
           {| vf_module := "shop.views"; vf_name := "index" |}
           eq_refl eq_refl eq_refl eq_refl eq_refl eq_refl
           ltac:(discriminate) eq_refl).
Defined.

(** C7: with [X-Forwarded-Proto: https] the middleware never answers with
    the HTTPS redirect, and a request that gets past the allow-lists is
    handed to the credential check as a secure request. *)
Theorem C7_forwarded_https search resolve authenticate settings self request :
  HTTP_X_FORWARDED_PROTO request = Some "https"%string ->
  (forall url, fst (process_request search resolve authenticate settings self request)
               <> Respond (HttpResponseTemporaryRedirect url))
  /\ (forall vf,
        globally_disabled settings = false ->
        url_allowed search self request = false ->
        already_authenticated request = false ->
        resolve (PATH_INFO request) = Some vf ->
        view_allowed self vf = false ->
        process_request search resolve authenticate settings self request
        = _http_auth_helper authenticate settings (set_is_secure request true)).
Proof.
  intros Hx. split.
  - intros url. unfold process_request.
    destruct (globally_disabled settings); [discriminate|].
    destruct (url_allowed search self request); [discriminate|].
    destruct (already_authenticated request); [discriminate|].
    destruct (resolve (PATH_INFO request)) as [vf|]; [|discriminate].
    destruct (view_allowed self vf); [discriminate|].
    rewrite (forwarded_proto_https request Hx). simpl.
    rewrite andb_false_r. apply auth_helper_not_redirect.
  - intros vf Hg Hu Ha Hr Hv. unfold process_request.
    rewrite Hg, Hu, Ha, Hr, Hv, (forwarded_proto_https request Hx). simpl.
    now rewrite andb_false_r.
Qed.

Lemma C7_forwarded_https_witness :
  fst (process_request Demo.search Demo.resolve Demo.authenticate
         (Demo.settings None false) Demo.mw
         (Demo.request "POST" (Some "https"%string) None))
  <> Respond (HttpResponseTemporaryRedirect "https://shop.example/cart?x=1").
Proof.
  exact (proj1 (C7_forwarded_https Demo.search Demo.resolve Demo.authenticate
                  (Demo.settings None false) Demo.mw
                  (Demo.request "POST" (Some "https"%string) None) eq_refl)
               "https://shop.example/cart?x=1"%string).
Defined.

(** C8 (counterexample): in DEBUG a plain-HTTP PUT that no allow-list
    covers is redirected with 307; no error is raised. *)
Lemma C8_debug_put_counterexample :
  fst (process_request Demo.search Demo.resolve Demo.authenticate
         (Demo.settings (Some true) true) Demo.mw (Demo.request "PUT" None None))
    = Respond (HttpResponseTemporaryRedirect "https://shop.example/cart?x=1").
Proof. vm_compute. reflexivity. Qed.

(** C8 (amended): in DEBUG, a request that reaches the HTTPS redirect
    raises [RuntimeError] when its method is exactly "POST"; any other
    method (PUT, PATCH, DELETE, ...) gets the 307 redirect. *)
Theorem C8_debug_only_post_raises search resolve authenticate settings self request vf :
  DEBUG settings = true ->
  globally_disabled settings = false ->
  url_allowed search self request = false ->
  already_authenticated request = false ->
  resolve (PATH_INFO request) = Some vf ->
  view_allowed self vf = false ->
  is_secure request = false ->
  HTTP_X_FORWARDED_PROTO request <> Some "https"%string ->
  debug_disable_https self = false ->
  (method request = "POST"%string ->
   fst (process_request search resolve authenticate settings self request)
   = Raise (RuntimeError redirect_msg))
  /\ (method request <> "POST"%string ->
      fst (process_request search resolve authenticate settings self request)
      = Respond (HttpResponseTemporaryRedirect
                   ("https://" ++ host request ++ full_path request)%string)).
Proof.
  intros HD Hg Hu Ha Hr Hv Hsec Hx Hd.
  rewrite (process_request_reaches_redirect search resolve authenticate settings self
             request vf Hg Hu Ha Hr Hv Hsec Hx Hd).
  unfold _redirect. simpl. rewrite HD. simpl.
  split; intros Hm.
  - rewrite Hm. reflexivity.
  - destruct (String.eqb_spec (method request) "POST"); [contradiction | reflexivity].
Qed.

Lemma C8_debug_only_post_raises_witness :
  fst (process_request Demo.search Demo.resolve Demo.authenticate
         (Demo.settings (Some true) true) Demo.mw (Demo.request "DELETE" None None))
  = Respond (HttpResponseTemporaryRedirect "https://shop.example/cart?x=1").
Proof.
  exact (proj2 (C8_debug_only_post_raises Demo.search Demo.resolve Demo.authenticate
           (Demo.settings (Some true) true) Demo.mw (Demo.request "DELETE" None None)
           {| vf_module := "shop.views"; vf_name := "index" |}
           eq_refl eq_refl eq_refl eq_refl eq_refl eq_refl eq_refl
           ltac:(discriminate) eq_refl) ltac:(discriminate)).
Defined.

Lemma set_session_set_is_secure_id request :
  set_session (set_is_secure request (is_secure request)) (session request) = request.
Proof. destruct request; reflexivity. Qed.

Lemma set_session_twice request s s' :
  set_session (set_session request s) s' = set_session request s'.
Proof. destruct request; reflexivity. Qed.

Lemma forwarded_proto_shape request :
  exists b, forwarded_proto request
            = set_session (set_is_secure request b) (session request)
    /\ (b = is_secure request
        \/ (HTTP_X_FORWARDED_PROTO request = Some "https"%string /\ b = true)).
Proof.
  unfold forwarded_proto.
  destruct (HTTP_X_FORWARDED_PROTO request) as [x|] eqn:Hx.
  - destruct (String.eqb_spec x "https") as [->|].
    + exists true. split; [destruct request; reflexivity | right; auto].
    + exists (is_secure request). rewrite set_session_set_is_secure_id. auto.
  - exists (is_secure request). rewrite set_session_set_is_secure_id. auto.
Qed.

(** C9 (counterexample): a plain-HTTP request carrying
    [X-Forwarded-Proto: https] and no credentials is challenged with 401,
    and the request object comes back with [is_secure] switched to true. *)
Lemma C9_is_secure_written_counterexample :
  fst (process_request Demo.search Demo.resolve Demo.authenticate
         (Demo.settings (Some true) false) Demo.mw
         (Demo.request "GET" (Some "https"%string) None))
    = Respond (challenge "shop")
  /\ is_secure (Demo.request "GET" (Some "https"%string) None) = false
  /\ is_secure (snd (process_request Demo.search Demo.resolve Demo.authenticate
         (Demo.settings (Some true) false) Demo.mw
         (Demo.request "GET" (Some "https"%string) None))) = true.
Proof. vm_compute. auto. Qed.

(** The helper touches the request only on a staff login, and then only
    by storing the username decoded from the header. *)
Lemma auth_helper_session authenticate settings r :
  snd (_http_auth_helper authenticate settings r) = r
  \/ (fst (_http_auth_helper authenticate settings r) = Continue
      /\ exists hdr scheme tok d u pw user,
           HTTP_AUTHORIZATION r = Some hdr
           /\ PyStr.split_ws hdr = [scheme; tok]
           /\ PyStr.lower scheme = "basic"%string
           /\ B64.b64decode tok = Some d
           /\ PyStr.split_on ":" d = [u; pw]
           /\ authenticate u pw = Some user /\ is_staff user = true
           /\ snd (_http_auth_helper authenticate settings r)
              = set_session r (<["moat_username" := u]> (session r))).
Proof.
  unfold _http_auth_helper, auth_challenge.
  destruct (HTTP_AUTHORIZATION r) as [hdr|] eqn:Hh; [|left; reflexivity].
  destruct (PyStr.split_ws hdr) as [|scheme [|tok [|x l]]] eqn:Hs;
    try (left; reflexivity).
  destruct (String.eqb_spec (PyStr.lower scheme) "basic") as [Hl|]; [|left; reflexivity].
  destruct (B64.b64decode tok) as [d|] eqn:Hd; [|left; reflexivity].
  destruct (PyStr.split_on ":" d) as [|u [|pw [|y l']]] eqn:Hc; try (left; reflexivity).
  destruct (authenticate u pw) as [user|] eqn:Ha; [|left; reflexivity].
  destruct (is_staff user) eqn:Hst; [|left; reflexivity].
  right. split; [reflexivity|].
  exists hdr, scheme, tok, d, u, pw, user. repeat split; assumption.
Qed.

Lemma auth_helper_login authenticate settings r hdr scheme tok d u pw user :
  HTTP_AUTHORIZATION r = Some hdr ->
  PyStr.split_ws hdr = [scheme; tok] ->
  PyStr.lower scheme = "basic"%string ->
  B64.b64decode tok = Some d ->
  PyStr.split_on ":" d = [u; pw] ->
  authenticate u pw = Some user -> is_staff user = true ->
  _http_auth_helper authenticate settings r
  = (Continue, set_session r (<["moat_username" := u]> (session r))).
Proof.
  intros Hh Hs Hl Hd Hc Ha Hst. unfold _http_auth_helper.
  rewrite Hh, Hs, Hl. simpl. rewrite Hd, Hc, Ha, Hst. reflexivity.
Qed.

Lemma forwarded_proto_fields request :
  HTTP_AUTHORIZATION (forwarded_proto request) = HTTP_AUTHORIZATION request
  /\ session (forwarded_proto request) = session request
  /\ is_secure (forwarded_proto request)
     = is_secure request
       || match HTTP_X_FORWARDED_PROTO request with
          | Some x => String.eqb x "https"
          | None => false
          end.
Proof.
  unfold forwarded_proto.
  destruct (HTTP_X_FORWARDED_PROTO request) as [x|]; [|rewrite orb_false_r; auto].
  destruct (String.eqb x "https"); [rewrite orb_true_r|rewrite orb_false_r]; auto.
Qed.

Lemma set_session_forwarded_proto request :
  set_session (forwarded_proto request) (session request) = forwarded_proto request.
Proof.
  unfold forwarded_proto.
  destruct (HTTP_X_FORWARDED_PROTO request); [destruct (String.eqb _ _)|];
    destruct request; reflexivity.
Qed.

(** C9 (amended): what [process_request] writes.
    - When the kill switch, the URL allow-list, the session check, an
      unresolvable path or the view allow-lists end the call, the
      request comes back exactly as it went in.
    - Past the view checks, the request comes back as [forwarded_proto]
      made it, so [is_secure] is true when X-Forwarded-Proto is "https"
      and unchanged otherwise, with only its session [s] possibly
      replaced.
    - [s] differs from the incoming session only when the call returns
      [None] after a Basic header decoded to [u:pw] and [authenticate]
      accepted a staff user.  Then [s] is the incoming session with
      [moat_username] set to that decoded [u].
    - When such a login is not redirected to HTTPS, the write does
      happen.
    The settings and the middleware object are inputs only. *)
Theorem C9_only_writes search resolve authenticate settings self request :
  ((globally_disabled settings = true
    \/ url_allowed search self request = true
    \/ already_authenticated request = true
    \/ resolve (PATH_INFO request) = None
    \/ (exists vf, resolve (PATH_INFO request) = Some vf /\ view_allowed self vf = true)) ->
   snd (process_request search resolve authenticate settings self request) = request)
  /\ (forall vf,
        globally_disabled settings = false ->
        url_allowed search self request = false ->
        already_authenticated request = false ->
        resolve (PATH_INFO request) = Some vf ->
        view_allowed self vf = false ->
        exists s,
          snd (process_request search resolve authenticate settings self request)
            = set_session (forwarded_proto request) s
          /\ is_secure (snd (process_request search resolve authenticate settings self request))
             = is_secure request
               || match HTTP_X_FORWARDED_PROTO request with
                  | Some x => String.eqb x "https"
                  | None => false
                  end
          /\ (s = session request
              \/ (fst (process_request search resolve authenticate settings self request)
                    = Continue
                  /\ exists hdr scheme tok d u pw user,
                       HTTP_AUTHORIZATION request = Some hdr
                       /\ PyStr.split_ws hdr = [scheme; tok]
                       /\ PyStr.lower scheme = "basic"%string
                       /\ B64.b64decode tok = Some d
                       /\ PyStr.split_on ":" d = [u; pw]
                       /\ authenticate u pw = Some user /\ is_staff user = true
                       /\ s = <["moat_username" := u]> (session request)))
          /\ (forall hdr scheme tok d u pw user,
                HTTP_AUTHORIZATION request = Some hdr ->
                PyStr.split_ws hdr = [scheme; tok] ->
                PyStr.lower scheme = "basic"%string ->
                B64.b64decode tok = Some d ->
                PyStr.split_on ":" d = [u; pw] ->
                authenticate u pw = Some user -> is_staff user = true ->
                (debug_disable_https self = true \/ is_secure (forwarded_proto request) = true) ->
                s = <["moat_username" := u]> (session request))).
Proof.
  split.
  - intros H. unfold process_request.
    destruct (globally_disabled settings) eqn:Hg; [reflexivity|].
    destruct (url_allowed search self request) eqn:Hu; [reflexivity|].
    destruct (already_authenticated request) eqn:Ha; [reflexivity|].
    destruct (resolve (PATH_INFO request)) as [vf|] eqn:Hr; [|reflexivity].
    destruct (view_allowed self vf) eqn:Hv; [reflexivity|].
    exfalso.
    destruct H as [H|[H|[H|[H|(vf' & H1 & H2)]]]]; congruence.
  - intros vf Hg Hu Ha Hr Hv.
    destruct (forwarded_proto_fields request) as (Fh & Fs & Fi).
    unfold process_request. rewrite Hg, Hu, Ha, Hr, Hv.
    destruct (negb (debug_disable_https self)
              && negb (is_secure (forwarded_proto request))) eqn:Hred.
    + exists (session request). simpl.
      rewrite set_session_forwarded_proto. split; [reflexivity|].
      split; [exact Fi|]. split; [left; reflexivity|].
      intros hdr scheme tok d u pw user _ _ _ _ _ _ _ [Hd|Hd]; exfalso;
        rewrite Hd in Hred; [discriminate|].
      rewrite andb_false_r in Hred. discriminate.
    + destruct (auth_helper_session authenticate settings (forwarded_proto request))
        as [Heq | (Hc & hdr & scheme & tok & d & u & pw & user
                   & Hh & Hs & Hl & Hd & Hsp & Hau & Hst & Heq)].
      * exists (session request). rewrite Heq, set_session_forwarded_proto.
        split; [reflexivity|]. split; [exact Fi|]. split; [left; reflexivity|].
        intros hdr scheme tok d u pw user Hh Hs Hl Hd Hsp Hau Hst _.
        pose proof (auth_helper_login authenticate settings (forwarded_proto request)
                      hdr scheme tok d u pw user ltac:(congruence) Hs Hl Hd Hsp Hau Hst)
          as Hlog.
        rewrite Hlog in Heq. cbn [snd] in Heq.
        unfold already_authenticated in Ha.
        apply (f_equal (fun r => session r !! "moat_username")) in Heq.
        cbn [session set_session] in Heq. rewrite lookup_insert_eq, Fs in Heq.
        rewrite <- Heq in Ha. discriminate.
      * exists (<["moat_username" := u]> (session request)).
        rewrite Heq, Fs.
        split; [reflexivity|]. split; [exact Fi|]. split.
        { right. split; [exact Hc|].
          exists hdr, scheme, tok, d, u, pw, user. rewrite <- Fh.
          repeat split; assumption. }
        intros hdr' scheme' tok' d' u' pw' user' Hh' Hs' Hl' Hd' Hsp' Hau' Hst' _.
        rewrite <- Fh, Hh in Hh'. injection Hh' as <-.
        rewrite Hs in Hs'. injection Hs' as <- <-.
        rewrite Hd in Hd'. injection Hd' as <-.
        rewrite Hsp in Hsp'. injection Hsp' as <- <-. reflexivity.
Qed.

(** C10: with DEBUG off, a request that reaches the HTTPS check over
    plain HTTP gets the 307 redirect whatever its method, POST included;
    and [process_request] raises [RuntimeError] only under DEBUG for a
    POST. *)
Theorem C10_production_post_redirected search resolve authenticate settings self :
  (forall request m,
     fst (process_request search resolve authenticate settings self request)
       = Raise (RuntimeError m) ->
     DEBUG settings = true /\ method request = "POST"%string)
  /\ (forall request vf,
        DEBUG settings = false ->
        globally_disabled settings = false ->
        url_allowed search self request = false ->
        already_authenticated request = false ->
        resolve (PATH_INFO request) = Some vf ->
        view_allowed self vf = false ->
        is_secure request = false ->
        HTTP_X_FORWARDED_PROTO request <> Some "https"%string ->
        debug_disable_https self = false ->
        process_request search resolve authenticate settings self request
        = (Respond (HttpResponseTemporaryRedirect
                      ("https://" ++ host request ++ full_path request)%string),
           request)).
Proof.
  split.
  - intros request m. apply process_request_runtime_error.
  - intros request vf HD Hg Hu Ha Hr Hv Hsec Hx Hd.
    rewrite (process_request_reaches_redirect search resolve authenticate settings self
               request vf Hg Hu Ha Hr Hv Hsec Hx Hd).
    unfold _redirect. rewrite HD. reflexivity.
Qed.

Lemma C10_production_post_redirected_witness :
  process_request Demo.search Demo.resolve Demo.authenticate
    (Demo.settings (Some true) false) Demo.mw (Demo.request "POST" None None)
  = (Respond (HttpResponseTemporaryRedirect "https://shop.example/cart?x=1"),
     Demo.request "POST" None None).
Proof.
  exact (proj2 (C10_production_post_redirected Demo.search Demo.resolve Demo.authenticate
           (Demo.settings (Some true) false) Demo.mw)
           (Demo.request "POST" None None)
           {| vf_module := "shop.views"; vf_name := "index" |}
           eq_refl eq_refl eq_refl eq_refl eq_refl eq_refl eq_refl
           ltac:(discriminate) eq_refl).
Defined.

(* ------------------------------------------------------------------ *)
(** ** Further properties of [b64decode] *)

Lemma skipped_not_valid (c : ascii) : B64.skipped c = true -> b64_valid c = false.
Proof. destruct c as [[] [] [] [] [] [] [] []]; vm_compute; congruence. Qed.

Lemma valid_low (c : ascii) :
  b64_valid c = true -> (Z.of_nat (nat_of_ascii c) <=? 127) = true.
Proof. destruct c as [[] [] [] [] [] [] [] []]; vm_compute; congruence. Qed.

Lemma pad_valid : b64_valid B64.pad = true.
Proof. reflexivity. Qed.

Lemma next_valid_spec (l : list ascii) :
  B64.next_valid l = hd_error (List.filter b64_valid l).
Proof.
  induction l as [|c l IH]; [reflexivity|].
  cbn [B64.next_valid List.filter].
  change (match B64.table c with Some _ => true | None => false end) with (b64_valid c).
  destruct (b64_valid c) eqn:Hv.
  - rewrite (valid_low c Hv). reflexivity.
  - rewrite andb_false_r. exact IH.
Qed.

Lemma filter_idem {A} (f : A -> bool) (l : list A) :
  List.filter f (List.filter f l) = List.filter f l.
Proof.
  induction l as [|x l IH]; [reflexivity|]. simpl.
  destruct (f x) eqn:Hf; simpl; [rewrite Hf, IH|]; auto.
Qed.

Lemma a2b_go_filter (l : list ascii) qp lb lc out :
  B64.a2b_go l qp lb lc out = B64.a2b_go (List.filter b64_valid l) qp lb lc out.
Proof.
  revert qp lb lc out. induction l as [|c l IH]; intros qp lb lc out; [reflexivity|].
  simpl. destruct (b64_valid c) eqn:Hv.
  - simpl. destruct (B64.skipped c) eqn:Hs.
    { rewrite (skipped_not_valid c Hs) in Hv. discriminate. }
    destruct (Ascii.eqb c B64.pad).
    + rewrite !next_valid_spec, filter_idem.
      destruct (_ || _); [apply IH | reflexivity].
    + destruct (B64.table c); [|apply IH].
      destruct (8 <=? lb + 6); apply IH.
  - destruct (B64.skipped c); [apply IH|].
    destruct (Ascii.eqb_spec c B64.pad) as [->|].
    { rewrite pad_valid in Hv. discriminate. }
    unfold b64_valid in Hv. destruct (B64.table c); [discriminate | apply IH].
Qed.

(** [b64decode] drops every byte outside the alphabet and '=' before
    decoding: whitespace, punctuation or high bytes anywhere in the
    token change nothing. *)
Theorem b64decode_ignores_invalid_bytes (s : string) :
  B64.b64decode s
  = B64.b64decode (string_of_list_ascii (List.filter b64_valid (list_ascii_of_string s))).
Proof.
  unfold B64.b64decode. rewrite list_ascii_of_string_of_list_ascii.
  now rewrite <- a2b_go_filter.
Qed.

Lemma a2b_go_alphabet (l : list ascii) qp lb lc out :
  0 <= lb < 8 -> forallb b64_alphabet l = true ->
  match B64.a2b_go l qp lb lc out with
  | Some r => (lb + 6 * Z.of_nat (length l)) mod 8 = 0
              /\ Z.of_nat (length r)
                 = Z.of_nat (length out) + (lb + 6 * Z.of_nat (length l)) / 8
  | None => (lb + 6 * Z.of_nat (length l)) mod 8 <> 0
  end.
Proof.
  revert qp lb lc out. induction l as [|c l IH]; intros qp lb lc out Hlb Hl.
  - simpl. destruct (Z.eqb_spec lb 0) as [->|Hne].
    + rewrite length_rev. simpl. split; [reflexivity | simpl; rewrite Zdiv_0_l; lia].
    + rewrite Z.add_0_r, Z.mod_small by lia. exact Hne.
  - simpl in Hl. apply andb_true_iff in Hl as [Hc Hl].
    unfold b64_alphabet, b64_valid in Hc. apply andb_true_iff in Hc as [Hv Hp].
    apply negb_true_iff in Hp.
    assert (Hs : B64.skipped c = false).
    { destruct (B64.skipped c) eqn:E; [|reflexivity].
      pose proof (skipped_not_valid c E) as E'. unfold b64_valid in E'.
      destruct (B64.table c); discriminate. }
    simpl. rewrite Hs, Hp.
    destruct (B64.table c) as [v|]; [|discriminate]. cbv zeta.
    replace (Z.of_nat (length (c :: l))) with (Z.of_nat (length l) + 1) by (simpl; lia).
    destruct (Z.leb_spec 8 (lb + 6)).
    + match goal with |- context [B64.a2b_go l ?q ?b ?x ?o] =>
        generalize (IH q b x o ltac:(lia) Hl) end.
      destruct (B64.a2b_go _ _ _ _ _) as [r|]; simpl.
      * intros [H1 H2]. split; [|rewrite H2]; Z.div_mod_to_equations; lia.
      * intros H1. Z.div_mod_to_equations; lia.
    + match goal with |- context [B64.a2b_go l ?q ?b ?x ?o] =>
        generalize (IH q b x o ltac:(lia) Hl) end.
      destruct (B64.a2b_go _ _ _ _ _) as [r|].
      * intros [H1 H2]. split; [|rewrite H2]; Z.div_mod_to_equations; lia.
      * intros H1. Z.div_mod_to_equations; lia.
Qed.

Lemma length_list_ascii_of_string (s : string) :
  length (list_ascii_of_string s) = String.length s.
Proof. induction s as [|c s IH]; simpl; auto. Qed.

Lemma length_string_of_list_ascii (l : list ascii) :
  String.length (string_of_list_ascii l) = length l.
Proof. induction l as [|c l IH]; simpl; auto. Qed.

(** A token made only of alphabet bytes (no '=') decodes without error
    exactly when its length is a multiple of 4, and then gives 3 bytes
    for every 4 characters. *)
Theorem b64decode_unpadded (s : string) :
  forallb b64_alphabet (list_ascii_of_string s) = true ->
  (B64.b64decode s = None <-> (String.length s mod 4 <> 0)%nat)
  /\ (forall r, B64.b64decode s = Some r ->
        (4 * String.length r = 3 * String.length s)%nat).
Proof.
  intros Hs. unfold B64.b64decode.
  pose proof (a2b_go_alphabet (list_ascii_of_string s) 0 0 0 [] ltac:(lia) Hs) as H.
  rewrite length_list_ascii_of_string in H.
  destruct (B64.a2b_go _ 0 0 0 []) as [r|]; cbn [option_map].
  - destruct H as [H1 H2]. simpl in H2. split.
    + split; [discriminate|]. intros Hm. exfalso. apply Hm.
      pose proof (Nat.div_mod (String.length s) 4 ltac:(lia)).
      pose proof (Nat.mod_upper_bound (String.length s) 4 ltac:(lia)).
      set (q := (String.length s / 4)%nat) in *. set (m := (String.length s mod 4)%nat) in *.
      clearbody q m. Z.div_mod_to_equations; lia.
    + intros r' Hr. injection Hr as <-. rewrite length_string_of_list_ascii.
      apply Nat2Z.inj. rewrite !Nat2Z.inj_mul. rewrite H2.
      Z.div_mod_to_equations; lia.
  - split; [|discriminate]. split; [intros _|reflexivity].
    intros Hm. apply H.
    pose proof (Nat.div_mod (String.length s) 4 ltac:(lia)).
    set (q := (String.length s / 4)%nat) in *. set (m := (String.length s mod 4)%nat) in *.
    clearbody q m. subst m. Z.div_mod_to_equations; lia.
Qed.

Lemma b64decode_unpadded_witness :
  (B64.b64decode "YWRtaW46c2VjcmV0" = None <-> (String.length "YWRtaW46c2VjcmV0" mod 4 <> 0)%nat)
  /\ (forall r, B64.b64decode "YWRtaW46c2VjcmV0" = Some r ->
        (4 * String.length r = 3 * String.length "YWRtaW46c2VjcmV0")%nat).
Proof. exact (b64decode_unpadded "YWRtaW46c2VjcmV0" eq_refl). Defined.

(* ------------------------------------------------------------------ *)
(** ** Further properties of [process_request] *)

Lemma prefix_app (p r : string) : String.prefix p (p ++ r) = true.
Proof.
  induction p as [|c p IH]; simpl; [destruct r; reflexivity|].
  destruct (ascii_dec c c); [exact IH | congruence].
Qed.

(** A request whose session already holds [moat_username] is let through
    unchanged, whatever its transport, credentials or view. *)
Theorem session_fast_path search resolve authenticate settings self request u :
  session request !! "moat_username" = Some u ->
  process_request search resolve authenticate settings self request
  = (Continue, request).
Proof.
  intros Hs. unfold process_request.
  destruct (globally_disabled settings); [reflexivity|].
  destruct (url_allowed search self request); [reflexivity|].
  unfold already_authenticated. now rewrite Hs.
Qed.

Lemma session_fast_path_witness :
  process_request Demo.search Demo.resolve Demo.authenticate
    (Demo.settings (Some true) true) Demo.mw
    (set_session (Demo.request "POST" None None) {["moat_username" := "admin"]})
  = (Continue, set_session (Demo.request "POST" None None) {["moat_username" := "admin"]}).
Proof. apply (session_fast_path _ _ _ _ _ _ "admin"). reflexivity. Defined.

(** A login is remembered: when a call hands back a request whose session
    holds [moat_username], calling the middleware again on that request
    lets it through and changes nothing. *)
Theorem login_remembered search resolve authenticate settings self request u :
  session (snd (process_request search resolve authenticate settings self request))
    !! "moat_username" = Some u ->
  let request' := snd (process_request search resolve authenticate settings self request) in
  process_request search resolve authenticate settings self request'
  = (Continue, request').
Proof.
  intros Hs request'. unfold process_request at 1.
  destruct (globally_disabled settings); [reflexivity|].
  destruct (url_allowed search self request'); [reflexivity|].
  unfold already_authenticated. unfold request'. now rewrite Hs.
Qed.

Lemma login_remembered_witness :
  let request' := snd (process_request Demo.search Demo.resolve Demo.authenticate
    (Demo.settings (Some true) false) Demo.mw
    (Demo.request "GET" (Some "https"%string) (Some "Basic YWRtaW46c2VjcmV0"%string))) in
  process_request Demo.search Demo.resolve Demo.authenticate
    (Demo.settings (Some true) false) Demo.mw request'
  = (Continue, request').
Proof. apply (login_remembered _ _ _ _ _ _ "admin"). vm_compute. reflexivity. Defined.

(** The built-in view [django.views.generic.simple.redirect_to] is always
    let through, whatever the configured allow-lists. *)
Theorem redirect_to_view_allowed search resolve authenticate settings self request :
  resolve (PATH_INFO request)
    = Some {| vf_module := "django.views.generic.simple"; vf_name := "redirect_to" |} ->
  process_request search resolve authenticate settings self request
  = (Continue, request).
Proof.
  intros Hr. unfold process_request.
  destruct (globally_disabled settings); [reflexivity|].
  destruct (url_allowed search self request); [reflexivity|].
  destruct (already_authenticated request); [reflexivity|].
  rewrite Hr. reflexivity.
Qed.

Lemma redirect_to_view_allowed_witness :
  process_request Demo.search
    (fun _ => Some {| vf_module := "django.views.generic.simple"; vf_name := "redirect_to" |})
    Demo.authenticate (Demo.settings (Some true) true) Demo.mw (Demo.request "POST" None None)
  = (Continue, Demo.request "POST" None None).
Proof. apply redirect_to_view_allowed. reflexivity. Defined.

(** A view whose module is listed in MOAT_ALWAYS_ALLOW_MODULES is let
    through unchanged. *)
Theorem module_allow_list search resolve authenticate settings self request vf :
  resolve (PATH_INFO request) = Some vf ->
  In (vf_module vf) (always_allow_modules self) ->
  process_request search resolve authenticate settings self request
  = (Continue, request).
Proof.
  intros Hr Hin. unfold process_request.
  destruct (globally_disabled settings); [reflexivity|].
  destruct (url_allowed search self request); [reflexivity|].
  destruct (already_authenticated request); [reflexivity|].
  rewrite Hr.
  assert (Hv : view_allowed self vf = true).
  { unfold view_allowed. apply orb_true_iff. left. apply orb_true_iff. right.
    unfold PyStr.list_in. apply existsb_exists.
    destruct (always_allow_modules self) as [|m ms] eqn:Hm; [destruct Hin|].
    exists (vf_module vf). simpl. split; [exact Hin | apply String.eqb_refl]. }
  now rewrite Hv.
Qed.

Lemma module_allow_list_witness :
  process_request Demo.search Demo.resolve Demo.authenticate
    (Demo.settings (Some true) false)
    (MoatMiddleware_init
       {| MOAT_ENABLED := Some true; MOAT_ALWAYS_ALLOW_MODULES := Some ["shop.views"%string];
          MOAT_ALWAYS_ALLOW_VIEWS := None; MOAT_ALWAYS_ALLOW_URLS := None;
          MOAT_ALLOW_ADMIN := None; MOAT_DEBUG_DISABLE_HTTPS := None;
          DEBUG := false; HTTP_AUTH_REALM := None |})
    (Demo.request "GET" None None)
  = (Continue, Demo.request "GET" None None).
Proof.
  apply (module_allow_list _ _ _ _ _ _ {| vf_module := "shop.views"; vf_name := "index" |}).
  - reflexivity.
  - vm_compute. left. reflexivity.
Defined.

(** With MOAT_ALLOW_ADMIN on, every view whose module name starts with
    [django.contrib.admin] is let through unchanged. *)
Theorem admin_allowed search resolve authenticate settings self request vf rest :
  allow_admin self = true ->
  resolve (PATH_INFO request) = Some vf ->
  vf_module vf = ("django.contrib.admin" ++ rest)%string ->
  process_request search resolve authenticate settings self request
  = (Continue, request).
Proof.
  intros Ha Hr Hm. unfold process_request.
  destruct (globally_disabled settings); [reflexivity|].
  destruct (url_allowed search self request); [reflexivity|].
  destruct (already_authenticated request); [reflexivity|].
  rewrite Hr.
  assert (Hv : view_allowed self vf = true).
  { unfold view_allowed. apply orb_true_iff. right.
    rewrite Ha, Hm. unfold PyStr.startswith. apply prefix_app. }
  now rewrite Hv.
Qed.

Lemma admin_allowed_witness :
  process_request Demo.search
    (fun _ => Some {| vf_module := "django.contrib.admin.sites"; vf_name := "index" |})
    Demo.authenticate (Demo.settings (Some true) false)
    (MoatMiddleware_init
       {| MOAT_ENABLED := Some true; MOAT_ALWAYS_ALLOW_MODULES := None;
          MOAT_ALWAYS_ALLOW_VIEWS := None; MOAT_ALWAYS_ALLOW_URLS := None;
          MOAT_ALLOW_ADMIN := Some true; MOAT_DEBUG_DISABLE_HTTPS := None;
          DEBUG := false; HTTP_AUTH_REALM := None |})
    (Demo.request "GET" None None)
  = (Continue, Demo.request "GET" None None).
Proof.
  apply (admin_allowed _ _ _ _ _ _
           {| vf_module := "django.contrib.admin.sites"; vf_name := "index" |} ".sites");
    reflexivity.
Defined.

Lemma forwarded_proto_keeps_secure request :
  is_secure request = true -> is_secure (forwarded_proto request) = true.
Proof.
  unfold forwarded_proto. intros H.
  destruct (HTTP_X_FORWARDED_PROTO request); [destruct (String.eqb _ _)|];
    [reflexivity | exact H | exact H].
Qed.

(** A request that is already secure, or any request when
    MOAT_DEBUG_DISABLE_HTTPS is on, is never redirected to HTTPS and never
    meets the DEBUG/POST [RuntimeError]. *)
Theorem no_redirect_when_secure_or_disabled search resolve authenticate settings self request :
  debug_disable_https self = true \/ is_secure request = true ->
  (forall url, fst (process_request search resolve authenticate settings self request)
               <> Respond (HttpResponseTemporaryRedirect url))
  /\ (forall m, fst (process_request search resolve authenticate settings self request)
                <> Raise (RuntimeError m)).
Proof.
  intros H. unfold process_request.
  destruct (globally_disabled settings); [split; discriminate|].
  destruct (url_allowed search self request); [split; discriminate|].
  destruct (already_authenticated request); [split; discriminate|].
  destruct (resolve (PATH_INFO request)) as [vf|]; [|split; discriminate].
  destruct (view_allowed self vf); [split; discriminate|].
  assert (Hc : negb (debug_disable_https self)
               && negb (is_secure (forwarded_proto request)) = false).
  { destruct H as [H|H]; [rewrite H; reflexivity|].
    rewrite (forwarded_proto_keeps_secure request H). apply andb_false_r. }
  rewrite Hc. split.
  - intros url. apply auth_helper_not_redirect.
  - intros m. apply auth_helper_no_runtime_error.
Qed.

Lemma no_redirect_when_secure_or_disabled_witness :
  fst (process_request Demo.search Demo.resolve Demo.authenticate
         (Demo.settings (Some true) true) Demo.mw
         (set_is_secure (Demo.request "POST" None None) true))
  <> Raise (RuntimeError redirect_msg).
Proof.
  exact (proj2 (no_redirect_when_secure_or_disabled Demo.search Demo.resolve
           Demo.authenticate (Demo.settings (Some true) true) Demo.mw
           (set_is_secure (Demo.request "POST" None None) true) (or_intror eq_refl))
           redirect_msg).
Defined.

(** Every answer [process_request] gives is one of: let the request
    through, the 307 redirect to "https://" + host + full path, or the 401
    challenge with the configured realm (default empty); the only
    [RuntimeError] it raises carries the SSL/POST message. *)
Theorem outcome_shapes search resolve authenticate settings self request :
  match fst (process_request search resolve authenticate settings self request) with
  | Continue => True
  | Respond r =>
      r = HttpResponseTemporaryRedirect ("https://" ++ host request ++ full_path request)%string
      \/ r = challenge (getattr (HTTP_AUTH_REALM settings) "")
  | Raise (RuntimeError m) => m = redirect_msg
  | Raise _ => True
  end.
Proof.
  assert (Hh : forall r,
    match fst (_http_auth_helper authenticate settings r) with
    | Continue => True
    | Respond resp =>
        resp = HttpResponseTemporaryRedirect ("https://" ++ host request ++ full_path request)%string
        \/ resp = challenge (getattr (HTTP_AUTH_REALM settings) "")
    | Raise (RuntimeError m) => m = redirect_msg
    | Raise _ => True
    end).
  { intros r. unfold _http_auth_helper, auth_challenge. split_matches; auto. }
  assert (Hf : host (forwarded_proto request) = host request
               /\ full_path (forwarded_proto request) = full_path request).
  { unfold forwarded_proto.
    destruct (HTTP_X_FORWARDED_PROTO request); [destruct (String.eqb _ _)|]; auto. }
  unfold process_request.
  destruct (globally_disabled settings); [exact I|].
  destruct (url_allowed search self request); [exact I|].
  destruct (already_authenticated request); [exact I|].
  destruct (resolve (PATH_INFO request)) as [vf|]; [|exact I].
  destruct (view_allowed self vf); [exact I|].
  destruct (_ && _); [|apply Hh].
  unfold _redirect. destruct Hf as [-> ->].
  destruct (_ && _); simpl; auto.
Qed.

(** The credential check answers with the 401 challenge, leaving the
    request alone, when there is no Authorization header, when the header
    does not split into exactly two words, or when the first word is not
    "basic" in any letter case. *)
Theorem auth_helper_challenge_cases authenticate settings request :
  (HTTP_AUTHORIZATION request = None
   \/ (exists hdr, HTTP_AUTHORIZATION request = Some hdr
                   /\ length (PyStr.split_ws hdr) <> 2%nat)
   \/ (exists hdr scheme cred, HTTP_AUTHORIZATION request = Some hdr
                   /\ PyStr.split_ws hdr = [scheme; cred]
                   /\ PyStr.lower scheme <> "basic"%string)) ->
  _http_auth_helper authenticate settings request
  = (Respond (challenge (getattr (HTTP_AUTH_REALM settings) "")), request).
Proof.
  unfold _http_auth_helper, auth_challenge.
  intros [H | [(hdr & H & Hl) | (hdr & scheme & cred & H & Hs & Hb)]]; rewrite H.
  - reflexivity.
  - destruct (PyStr.split_ws hdr) as [|a [|b [|c l]]]; try reflexivity.
    simpl in Hl. congruence.
  - rewrite Hs. destruct (String.eqb_spec (PyStr.lower scheme) "basic");
      [contradiction | reflexivity].
Qed.

Lemma auth_helper_challenge_cases_witness :
  _http_auth_helper Demo.authenticate (Demo.settings (Some true) false)
    (Demo.request "GET" None (Some "Bearer YWRtaW46c2VjcmV0"%string))
  = (Respond (challenge "shop"),
     Demo.request "GET" None (Some "Bearer YWRtaW46c2VjcmV0"%string)).
Proof.
  apply auth_helper_challenge_cases. right. right.
  exists "Bearer YWRtaW46c2VjcmV0"%string, "Bearer"%string, "YWRtaW46c2VjcmV0"%string.
  split; [reflexivity|]. split; [vm_compute; reflexivity | discriminate].
Defined.

Lemma auth_helper_decoded authenticate settings request tok u pw :
  HTTP_AUTHORIZATION request = Some ("Basic " ++ tok)%string ->
  tok <> EmptyString -> no_space tok = true ->
  B64.b64decode tok = Some (u ++ ":" ++ pw)%string ->
  no_char ":" u = true -> no_char ":" pw = true ->
  _http_auth_helper authenticate settings request
  = match authenticate u pw with
    | Some user =>
        if is_staff user then
          (Continue, set_session request (<["moat_username" := u]> (session request)))
        else (auth_challenge settings, request)
    | None => (auth_challenge settings, request)
    end.
Proof.
  intros Hh Hne Hsp Hd Hu Hp.
  assert (Hs : PyStr.split_ws ("Basic " ++ tok) = ["Basic"%string; tok]).
  { change ("Basic " ++ tok)%string with ("Basic" ++ " " ++ tok)%string.
    apply split_ws_two; [discriminate | exact Hne | reflexivity | exact Hsp]. }
  assert (Hc : PyStr.split_on ":" (u ++ ":" ++ pw) = [u; pw]).
  { change (":" ++ pw)%string with (String ":" pw). now apply split_on_two. }
  unfold _http_auth_helper. rewrite Hh, Hs. cbv beta iota.
  change (String.eqb (PyStr.lower "Basic") "basic") with true. cbv iota.
  rewrite Hd. cbv beta iota. rewrite Hc. reflexivity.
Qed.

(** A well-formed Basic header whose credentials [authenticate] rejects,
    or accepts for a user who is not staff, gets the 401 challenge and
    the session is not touched. *)
Theorem failed_login_challenged authenticate settings request tok u pw :
  HTTP_AUTHORIZATION request = Some ("Basic " ++ tok)%string ->
  tok <> EmptyString -> no_space tok = true ->
  B64.b64decode tok = Some (u ++ ":" ++ pw)%string ->
  no_char ":" u = true -> no_char ":" pw = true ->
  match authenticate u pw with Some user => is_staff user = false | None => True end ->
  _http_auth_helper authenticate settings request
  = (Respond (challenge (getattr (HTTP_AUTH_REALM settings) "")), request).
Proof.
  intros Hh Hne Hsp Hd Hu Hp Ha.
  rewrite (auth_helper_decoded authenticate settings request tok u pw Hh Hne Hsp Hd Hu Hp).
  destruct (authenticate u pw) as [user|]; [rewrite Ha|]; reflexivity.
Qed.

Lemma failed_login_challenged_witness :
  _http_auth_helper Demo.authenticate (Demo.settings None false)
    (Demo.request "GET" None (Some "Basic YWRtaW46d3Jvbmc="%string))
  = (Respond (challenge "shop"),
     Demo.request "GET" None (Some "Basic YWRtaW46d3Jvbmc="%string)).
Proof.
  exact (failed_login_challenged Demo.authenticate (Demo.settings None false)
    (Demo.request "GET" None (Some "Basic YWRtaW46d3Jvbmc="%string))
    "YWRtaW46d3Jvbmc=" "admin" "wrong"
    eq_refl ltac:(discriminate) eq_refl eq_refl eq_refl eq_refl I).
Defined.

(** The scheme word is compared case-insensitively: any spelling of
    "basic" ("BASIC", "bAsIc", ...) gives the same outcome and the same
    session as "Basic" for the same credential word. *)
Theorem scheme_case_insensitive authenticate settings request scheme tok :
  scheme <> EmptyString -> no_space scheme = true ->
  PyStr.lower scheme = "basic"%string ->
  tok <> EmptyString -> no_space tok = true ->
  let r1 := set_authorization request (Some (scheme ++ " " ++ tok))%string in
  let r2 := set_authorization request (Some ("Basic " ++ tok))%string in
  fst (_http_auth_helper authenticate settings r1)
    = fst (_http_auth_helper authenticate settings r2)
  /\ session (snd (_http_auth_helper authenticate settings r1))
     = session (snd (_http_auth_helper authenticate settings r2)).
Proof.
  intros Hne Hsp Hl Htne Htsp r1 r2.
  assert (H1 : PyStr.split_ws (scheme ++ " " ++ tok) = [scheme; tok])
    by (apply split_ws_two; assumption).
  assert (H2 : PyStr.split_ws ("Basic " ++ tok) = ["Basic"%string; tok]).
  { change ("Basic " ++ tok)%string with ("Basic" ++ " " ++ tok)%string.
    apply split_ws_two; [discriminate | exact Htne | reflexivity | exact Htsp]. }
  unfold _http_auth_helper, r1, r2. cbn [HTTP_AUTHORIZATION set_authorization].
  rewrite H1, H2. cbv beta iota. rewrite Hl.
  change (String.eqb (PyStr.lower "Basic") "basic") with true.
  rewrite String.eqb_refl.
  destruct (B64.b64decode tok) as [d|]; [|split; reflexivity].
  destruct (PyStr.split_on ":" d) as [|u [|pw [|x l]]]; try (split; reflexivity).
  destruct (authenticate u pw) as [user|]; [|split; reflexivity].
  destruct (is_staff user); split; reflexivity.
Qed.

Lemma scheme_case_insensitive_witness :
  let r1 := set_authorization (Demo.request "GET" None None)
              (Some ("BASIC" ++ " " ++ "YWRtaW46c2VjcmV0"))%string in
  let r2 := set_authorization (Demo.request "GET" None None)
              (Some ("Basic " ++ "YWRtaW46c2VjcmV0"))%string in
  fst (_http_auth_helper Demo.authenticate (Demo.settings None false) r1)
    = fst (_http_auth_helper Demo.authenticate (Demo.settings None false) r2)
  /\ session (snd (_http_auth_helper Demo.authenticate (Demo.settings None false) r1))
     = session (snd (_http_auth_helper Demo.authenticate (Demo.settings None false) r2)).
Proof.
  exact (scheme_case_insensitive Demo.authenticate (Demo.settings None false)
    (Demo.request "GET" None None) "BASIC" "YWRtaW46c2VjcmV0"
    ltac:(discriminate) eq_refl eq_refl ltac:(discriminate) eq_refl).
Defined.

(** With none of the MOAT_* list or flag settings present, [__init__]
    leaves no URL allow-listed, keeps HTTPS enforcement on, and the only
    view the route check lets through is
    [django.views.generic.simple.redirect_to]. *)
Theorem init_defaults s search request vf :
  MOAT_ALWAYS_ALLOW_MODULES s = None ->
  MOAT_ALWAYS_ALLOW_VIEWS s = None ->
  MOAT_ALWAYS_ALLOW_URLS s = None ->
  MOAT_ALLOW_ADMIN s = None ->
  MOAT_DEBUG_DISABLE_HTTPS s = None ->
  url_allowed search (MoatMiddleware_init s) request = false
  /\ debug_disable_https (MoatMiddleware_init s) = false
  /\ (view_allowed (MoatMiddleware_init s) vf = true
      <-> (vf_module vf ++ "." ++ vf_name vf)%string
          = "django.views.generic.simple.redirect_to"%string).
Proof.
  intros Hm Hv Hu Ha Hd.
  unfold url_allowed, view_allowed, MoatMiddleware_init, PyStr.list_in.
  rewrite Hm, Hv, Hu, Ha, Hd. simpl. split; [reflexivity|]. split; [reflexivity|].
  rewrite !orb_false_r. apply String.eqb_eq.
Qed.

Lemma init_defaults_witness :
  let s := {| MOAT_ENABLED := None; MOAT_ALWAYS_ALLOW_MODULES := None;
              MOAT_ALWAYS_ALLOW_VIEWS := None; MOAT_ALWAYS_ALLOW_URLS := None;
              MOAT_ALLOW_ADMIN := None; MOAT_DEBUG_DISABLE_HTTPS := None;
              DEBUG := true; HTTP_AUTH_REALM := None |} in
  url_allowed Demo.search (MoatMiddleware_init s) Demo.public_request = false
  /\ debug_disable_https (MoatMiddleware_init s) = false
  /\ (view_allowed (MoatMiddleware_init s)
        {| vf_module := "django.contrib.admin.sites"; vf_name := "index" |} = true
      <-> ("django.contrib.admin.sites" ++ "." ++ "index")%string
          = "django.views.generic.simple.redirect_to"%string).
Proof.
  intros s.
  exact (init_defaults s Demo.search Demo.public_request
           {| vf_module := "django.contrib.admin.sites"; vf_name := "index" |}
           eq_refl eq_refl eq_refl eq_refl eq_refl).
Defined.

(** A request that gets past every allow-list, arrives secure (or with
    HTTPS enforcement off) and carries no Authorization header gets the
    401 challenge with the configured realm. *)
Theorem no_credentials_challenged search resolve authenticate settings self request vf :
  globally_disabled settings = false ->
  url_allowed search self request = false ->
  already_authenticated request = false ->
  resolve (PATH_INFO request) = Some vf ->
  view_allowed self vf = false ->
  is_secure request = true \/ debug_disable_https self = true ->
  HTTP_AUTHORIZATION request = None ->
  process_request search resolve authenticate settings self request
  = (Respond (challenge (getattr (HTTP_AUTH_REALM settings) "")),
     forwarded_proto request)
  /\ status_code (challenge (getattr (HTTP_AUTH_REALM settings) "")) = 401.
Proof.
  intros Hg Hu Ha Hr Hv Hs Hn. split; [|reflexivity].
  unfold process_request. rewrite Hg, Hu, Ha, Hr, Hv.
  assert (Hc : negb (debug_disable_https self)
               && negb (is_secure (forwarded_proto request)) = false).
  { destruct Hs as [H|H]; [|rewrite H; reflexivity].
    rewrite (forwarded_proto_keeps_secure request H). apply andb_false_r. }
  rewrite Hc. unfold _http_auth_helper.
  assert (Hn' : HTTP_AUTHORIZATION (forwarded_proto request) = None).
  { unfold forwarded_proto.
    destruct (HTTP_X_FORWARDED_PROTO request); [destruct (String.eqb _ _)|]; exact Hn. }
  rewrite Hn'. reflexivity.
Qed.

Lemma no_credentials_challenged_witness :
  process_request Demo.search Demo.resolve Demo.authenticate
    (Demo.settings None false) Demo.mw (set_is_secure (Demo.request "GET" None None) true)
  = (Respond (challenge "shop"), set_is_secure (Demo.request "GET" None None) true)
  /\ status_code (challenge "shop") = 401.
Proof.
  exact (no_credentials_challenged Demo.search Demo.resolve Demo.authenticate
    (Demo.settings None false) Demo.mw (set_is_secure (Demo.request "GET" None None) true)
    {| vf_module := "shop.views"; vf_name := "index" |}
    eq_refl eq_refl eq_refl eq_refl eq_refl (or_introl eq_refl) eq_refl).
Defined.
